(** * CodeGeneratorAgent: prompt assembly, remote-call wrapper and HTTP surface

    A shallow embedding of [config.py], [response_generator.py],
    [agents.py], [endpoints.py] and [main.py].

    Python [str] values are sequences of Unicode code points; the
    remote chat-completion service is an oracle acting on an abstract
    world state; handlers live in a state-and-exception monad. *)

From Stdlib Require Import NArith ZArith QArith List Bool.
From Stdlib Require Import Strings.String Strings.Ascii.
From stdpp Require Import base list gmap.

Set Default Proof Using "Type".
Local Open Scope N_scope.

(** ** Python strings *)

Module PyStr.

(** A [str] is a list of code points. *)
Abbreviation str := (list N).

(** Source literals are written as Rocq strings; all of them are ASCII
    except for one em dash, which is given by its code point. *)
Definition lit (s : string) : str :=
  List.map N_of_ascii (list_ascii_of_string s).

Definition LF : N := 10.
Definition EM_DASH : N := 8212.

(** [str.isspace] on one code point: the ASCII table of the interpreter
    (TAB..CR, FS..US, SPACE) and the Unicode White_Space code points. *)
Definition isspace (c : N) : bool :=
  ((9 <=? c) && (c <=? 13)) || ((28 <=? c) && (c <=? 32))
  || (c =? 133) || (c =? 160) || (c =? 5760)
  || ((8192 <=? c) && (c <=? 8202))
  || (c =? 8232) || (c =? 8233) || (c =? 8239) || (c =? 8287)
  || (c =? 12288).

Fixpoint lstrip (s : str) : str :=
  match s with
  | c :: s' => if isspace c then lstrip s' else s
  | [] => []
  end.

Definition rstrip (s : str) : str := rev (lstrip (rev s)).

(** [s.strip()] with no argument. *)
Definition strip (s : str) : str := rstrip (lstrip s).

(** [sep.join(parts)]. *)
Fixpoint join (sep : str) (parts : list str) : str :=
  match parts with
  | [] => []
  | [p] => p
  | p :: ps => p ++ sep ++ join sep ps
  end.

Fixpoint str_eqb (s t : str) : bool :=
  match s, t with
  | [], [] => true
  | c :: s', d :: t' => (c =? d) && str_eqb s' t'
  | _, _ => false
  end.

Fixpoint startswith (s prefix : str) {struct prefix} : bool :=
  match prefix, s with
  | [], _ => true
  | d :: prefix', c :: s' => (c =? d) && startswith s' prefix'
  | _ :: _, [] => false
  end.

(** [s.split("\n")]: the lines of a text. *)
Fixpoint lines (s : str) : list str :=
  match s with
  | [] => [[]]
  | c :: s' =>
      if c =? LF then [] :: lines s'
      else match lines s' with
           | l :: ls => (c :: l) :: ls
           | [] => [[c]]
           end
  end.

Definition is_ascii (c : N) : bool := c <? 128.

Definition ascii_lower (c : N) : N :=
  if (65 <=? c) && (c <=? 90) then c + 32 else c.

Definition ascii_upper (c : N) : N :=
  if (97 <=? c) && (c <=? 122) then c - 32 else c.

Section Lower.
(** The interpreter lowers a pure-ASCII string character by character
    and any other string through its Unicode case-mapping tables
    (which include the context-sensitive final sigma).  Those tables
    are not part of the repository: they are a parameter. *)
Variable unicode_lower : str -> str.

Definition lower (s : str) : str :=
  if forallb is_ascii s then List.map ascii_lower s else unicode_lower s.
End Lower.

End PyStr.
Import PyStr.

(** ** agents.py: the prompt-building part of [CodeAgent] *)

Definition system_prompt : str :=
  lit "
        You are an AI code generation assistant specialized in building software projects.

        Guidelines:
        - If the user asks for a full project, structure it clearly (e.g. folders, files).
        - If the user specifies a stack (language, framework, tools) in their prompt, follow it exactly.
        - If no stack is specified, suggest 2-5 relevant basic to advance tech based on implementation difficulty levels stacks and ask the user to choose before proceeding.
        - Once confirmed, build out the project step by step " ++ [EM_DASH] ++ lit " include core files and essential setup.
        - Always write clean, production-ready code.
        - Include comments only for complex logic.
        - Do not include explanations unless the user explicitly asks.
        - Use appropriate file/folder names and clearly separate backend, frontend, and config files when relevant.
        ".

Definition AUTO : str := lit "auto".
Definition BLANK_LINE : str := [LF; LF].
Definition TARGET_LANGUAGE : str := lit "Target language: ".
Definition INSTRUCTION : str := lit "Instruction: ".
Definition REVIEW_HEADER : str :=
  BLANK_LINE ++ lit "Review this code and suggest improvements:" ++ BLANK_LINE.
Definition EXPLAIN_HEADER : str :=
  BLANK_LINE ++ lit "Explain this code step by step:" ++ BLANK_LINE.

Section Prompts.
Variable unicode_lower : str -> str.

(** The list [prompt_parts] of [generate_code], after both appends.
    The [language] parameter has the default "auto": [None] is a call
    that leaves it out. *)
Definition generate_code_parts (instruction : str) (language_arg : option str)
  : list str :=
  let language := default AUTO language_arg in
  let prompt_parts := [strip system_prompt] in
  let prompt_parts :=
    if negb (str_eqb (lower unicode_lower language) AUTO)
    then prompt_parts ++ [TARGET_LANGUAGE ++ language]
    else prompt_parts in
  prompt_parts ++ [INSTRUCTION ++ strip instruction].

Definition generate_code_prompt (instruction : str) (language : option str)
  : str :=
  join BLANK_LINE (generate_code_parts instruction language).
End Prompts.

Definition review_code_prompt (code : str) : str :=
  system_prompt ++ REVIEW_HEADER ++ code.

Definition explain_code_prompt (code : str) : str :=
  system_prompt ++ EXPLAIN_HEADER ++ code.

(** ** config.py *)

Abbreviation environ := (gmap str str).

(** [os.getenv(key)] is [env !! key]; [os.getenv(key, default)] falls
    back to [default] when the variable is unset. *)
Definition getenv (env : environ) (key : str) : option str := env !! key.

Definition getenv_default (env : environ) (key default : str) : str :=
  match env !! key with
  | Some v => v
  | None => default
  end.

Record Config := {
  GROQ_API_KEY : option str;
  MODEL_ID : str;
  MAX_TOKENS : Z;
  TEMPERATURE : Q
}.

(** The class body of [Config], evaluated once in the process
    environment (after [load_dotenv]). *)
Definition Config_init (env : environ) : Config := {|
  GROQ_API_KEY := getenv env (lit "GROQ_API_KEY");
  MODEL_ID := getenv_default env (lit "MODEL_ID") (lit "llama3-8b-8192");
  MAX_TOKENS := 1500;
  TEMPERATURE := 0.5%Q
|}.

(** ** Effects: world state and Python exceptions *)

(** An instance of [Exception]; [exc_str e] is what [str(e)] gives. *)
Record Exception := { exc_type : str; exc_str : str }.

Inductive outcome (A : Type) : Type :=
| Return (a : A)
| Raise (e : Exception).
Arguments Return {A} a.
Arguments Raise {A} e.

Module Eff.
Section Monad.
(** [W] is the state of everything outside the process: the remote
    service, the network. *)
Context {W : Type}.

Definition M (A : Type) : Type := W -> W * outcome A.

Definition ret {A} (a : A) : M A := fun w => (w, Return a).
Definition raise {A} (e : Exception) : M A := fun w => (w, Raise e).

Definition bind {A B} (m : M A) (k : A -> M B) : M B :=
  fun w =>
    match m w with
    | (w', Return a) => k a w'
    | (w', Raise e) => (w', Raise e)
    end.

(** [try: body / except Exception as e: handler e]. *)
Definition try_except {A} (body : M A) (handler : Exception -> M A) : M A :=
  fun w =>
    match body w with
    | (w', Return a) => (w', Return a)
    | (w', Raise e) => handler e w'
    end.
End Monad.
Arguments M W A : clear implicits.
End Eff.
Import Eff.

Declare Scope eff_scope.
Delimit Scope eff_scope with eff.
Notation "x <- m ;; k" := (bind m (fun x => k))
  (at level 100, m at next level, right associativity) : eff_scope.

(** ** response_generator.py *)

Record PromptRequest := { prompt : str; language : str }.

(** Field defaults of the pydantic model: [prompt] is required,
    [language] is "auto" when omitted. *)
Definition PromptRequest_init (prompt : str) (language : option str)
  : PromptRequest :=
  {| prompt := prompt; language := default AUTO language |}.

(** The part of the chat-completion API that [call_groq] touches. *)
Record MessageParam := { role : str; msg_content : str }.

Record CompletionRequest := {
  messages : list MessageParam;
  model : str;
  max_tokens : Z;
  temperature : Q
}.

(** A parsed reply.  The client does not validate it: [choices],
    [message] and [content] may each be null. *)
Record ChatMessage := { content : option str }.
Record Choice := { message : option ChatMessage }.
Record ChatCompletion := { choices : option (list Choice) }.

Record ResponseGenerator := { config : Config }.

Definition IndexError : Exception :=
  {| exc_type := lit "IndexError"; exc_str := lit "list index out of range" |}.

Definition TypeError_subscript : Exception :=
  {| exc_type := lit "TypeError";
     exc_str := lit "'NoneType' object is not subscriptable" |}.

Definition AttributeError_content : Exception :=
  {| exc_type := lit "AttributeError";
     exc_str := lit "'NoneType' object has no attribute 'content'" |}.

Definition AttributeError_strip : Exception :=
  {| exc_type := lit "AttributeError";
     exc_str := lit "'NoneType' object has no attribute 'strip'" |}.

(** [response.choices[0].message.content.strip()]: each of the four
    steps can raise: subscripting null choices, indexing an empty list,
    reading [content] of a null message, calling [strip] on null content. *)
Definition first_choice_text (response : ChatCompletion) : outcome str :=
  match choices response with
  | None => Raise TypeError_subscript
  | Some cs =>
      match cs !! 0%nat with
      | None => Raise IndexError
      | Some c =>
          match message c with
          | None => Raise AttributeError_content
          | Some m =>
              match content m with
              | None => Raise AttributeError_strip
              | Some text => Return (strip text)
              end
          end
      end
  end.

Section Remote.
Context {W : Type}.
(** One invocation of [chat.completions.create(...)] on the client
    built with [api_key]: it answers or raises and may change the world.
    Whatever the client does inside one invocation (encoding the request,
    its own HTTP attempts) is part of this oracle. *)
Variable groq_create : option str -> CompletionRequest -> M W ChatCompletion.

Local Open Scope eff_scope.

Definition completion_request (self : ResponseGenerator) (prompt : str)
  : CompletionRequest :=
  {| messages := [ {| role := lit "user"; msg_content := prompt |} ];
     model := MODEL_ID (config self);
     max_tokens := MAX_TOKENS (config self);
     temperature := TEMPERATURE (config self) |}.

Definition lift {A} (r : outcome A) : M W A := fun w => (w, r).

Definition call_groq (self : ResponseGenerator) (prompt : str) : M W str :=
  try_except
    (response <- groq_create (GROQ_API_KEY (config self))
                             (completion_request self prompt) ;;
     lift (first_choice_text response))
    (fun e => ret (lit "Error: " ++ exc_str e)).
End Remote.

(** ** agents.py: [CodeAgent] *)

(** [self.system_prompt] is the constant [system_prompt] above; the
    agent's other attribute is its generator. *)
Record CodeAgent := { generator : ResponseGenerator }.

Definition CodeAgent_init (cfg : Config) : CodeAgent :=
  {| generator := {| config := cfg |} |}.

(** Building the agent also builds the client, [Groq(api_key=...)], which
    raises when it is given no key and finds none in the environment:
    the module-level [agent = CodeAgent()] then fails and the service does
    not start.  [CodeAgent_init] is the agent of a service that started. *)
Definition GroqError_no_key : Exception :=
  {| exc_type := lit "GroqError";
     exc_str := lit "The api_key client option must be set either by passing api_key to the client or by setting the GROQ_API_KEY environment variable" |}.

Definition CodeAgent_new (cfg : Config) : outcome CodeAgent :=
  match GROQ_API_KEY cfg with
  | Some _ => Return (CodeAgent_init cfg)
  | None => Raise GroqError_no_key
  end.

Section Agent.
Context {W : Type}.
Variable unicode_lower : str -> str.
Variable groq_create : option str -> CompletionRequest -> M W ChatCompletion.

Definition generate_code (self : CodeAgent) (instruction : str)
    (language : option str) : M W str :=
  call_groq groq_create (generator self)
            (generate_code_prompt unicode_lower instruction language).

Definition review_code (self : CodeAgent) (code : str) : M W str :=
  call_groq groq_create (generator self) (review_code_prompt code).

Definition explain_code (self : CodeAgent) (code : str) : M W str :=
  call_groq groq_create (generator self) (explain_code_prompt code).
End Agent.

(** ** endpoints.py and main.py *)

Abbreviation json_object := (list (str * str)).

(** What a route function does: return a dict or raise [HTTPException]. *)
Inductive route_result : Type :=
| Returned (body : json_object)
| HTTPException (status_code : Z) (detail : str).

Inductive http_body : Type :=
| JSON (content : json_object)
| PlainText (text : str).

Record http_response := { status : Z; body : http_body }.

(** A text can be encoded as UTF-8 unless it holds a surrogate code
    point. *)
Definition is_surrogate (c : N) : bool := (55296 <=? c) && (c <=? 57343).

Definition utf8_encodable (s : str) : bool :=
  forallb (fun c => negb (is_surrogate c)) s.

Definition json_encodable (o : json_object) : bool :=
  forallb (fun kv => utf8_encodable (fst kv) && utf8_encodable (snd kv)) o.

(** [JSONResponse(content, status_code)]: the body is the dumped content
    encoded as UTF-8; [None] when that encoding raises. *)
Definition JSONResponse (status_code : Z) (content : json_object)
  : option http_response :=
  if json_encodable content
  then Some {| status := status_code; body := JSON content |}
  else None.

(** What the framework sends when an exception escapes the application. *)
Definition INTERNAL_SERVER_ERROR : http_response :=
  {| status := 500; body := PlainText (lit "Internal Server Error") |}.

(** The response the framework builds from a route result, after the
    route function has finished. *)
Definition response_of (r : route_result) : option http_response :=
  match r with
  | Returned b => JSONResponse 200 b
  | HTTPException s d => JSONResponse s [(lit "detail", d)]
  end.

(** The framework's rendering of a route result: a returned dict is a
    200 JSON body, an [HTTPException] its status with a [detail] field;
    when building either response raises, the server error. *)
Definition render (r : route_result) : http_response :=
  default INTERNAL_SERVER_ERROR (response_of r).

(** A parsed JSON value. *)
#[warnings="-register-all"] Inductive json_value : Type :=
| JNull
| JBool (b : bool)
| JNumber (q : Q)
| JString (s : str)
| JArray (items : list json_value)
| JObject (fields : gmap str json_value).

Inductive http_request : Type :=
| GET (path : str)
| POST (path : str) (json : json_value).

(** A [str] field takes a JSON string and nothing else. *)
Definition str_field (v : json_value) : option str :=
  match v with
  | JString s => Some s
  | _ => None
  end.

(** Body validation against [PromptRequest]: the body is an object,
    [prompt] is present and a string, [language] is absent or a string;
    other fields are ignored.  [None] when the body is rejected. *)
Definition PromptRequest_validate (json : json_value) : option PromptRequest :=
  match json with
  | JObject fields =>
      match fields !! lit "prompt" with
      | Some v =>
          match str_field v with
          | Some p =>
              match fields !! lit "language" with
              | None => Some (PromptRequest_init p None)
              | Some v' =>
                  match str_field v' with
                  | Some l => Some (PromptRequest_init p (Some l))
                  | None => None
                  end
              end
          | None => None
          end
      | None => None
      end
  | _ => None
  end.

Definition root : route_result :=
  Returned [(lit "message", lit "AI Code Generator API is running!");
            (lit "docs", lit "/docs")].

Definition health : route_result :=
  Returned [(lit "status", lit "healthy");
            (lit "service", lit "CodeGenerator API")].

Section Endpoints.
Context {W : Type}.

(** The route body of POST /generate over the agent method it calls. *)
Definition generate_response_with
    (agent_generate_code : str -> option str -> M W str)
    (request : PromptRequest) : W -> W * route_result :=
  fun w =>
    match agent_generate_code (prompt request) (Some (language request)) w with
    | (w', Return response) => (w', Returned [(lit "response", response)])
    | (w', Raise e) => (w', HTTPException 500 (exc_str e))
    end.

Variable unicode_lower : str -> str.
Variable groq_create : option str -> CompletionRequest -> M W ChatCompletion.
Variable env : environ.

(** The module-level [agent = CodeAgent()]. *)
Definition agent : CodeAgent := CodeAgent_init (Config_init env).

Definition generate_response (request : PromptRequest)
  : W -> W * route_result :=
  generate_response_with (generate_code unicode_lower groq_create agent) request.

Definition API_PREFIX : str := lit "/api".

(** The application: routing of main.py.  [None] stands for the
    requests the framework answers without running a route function
    (unknown path or method, body rejected by validation). *)
Definition app (req : http_request) : W -> W * option http_response :=
  fun w =>
    match req with
    | GET path =>
        if str_eqb path (lit "/") then (w, Some (render root))
        else if str_eqb path (lit "/health") then (w, Some (render health))
        else (w, None)
    | POST path json =>
        if str_eqb path (API_PREFIX ++ lit "/generate") then
          match PromptRequest_validate json with
          | Some request =>
              let (w', r) := generate_response request w in
              (w', Some (render r))
          | None => (w, None)
          end
        else (w, None)
    end.

(** The world after the application has served a sequence of requests. *)
Fixpoint serve_all (reqs : list http_request) (w : W) : W :=
  match reqs with
  | [] => w
  | req :: reqs' => serve_all reqs' (fst (app req w))
  end.
End Endpoints.

(** ** Concrete runs *)

Module Run.
(** A fragment of the case tables, enough for the runs below. *)
Definition latin1_lower (s : str) : str :=
  List.map (fun c => if (192 <=? c) && (c <=? 222) && negb (c =? 215)
                     then c + 32 else ascii_lower c) s.

(** Remotes over a world that counts the calls made: one that answers
    with a fixed text, one that fails. *)
Definition canned_completion : ChatCompletion :=
  {| choices :=
       Some [ {| message := Some {| content := Some (lit "  print(1)" ++ [LF]) |} |} ] |}.

Definition canned_remote (_ : option str) (_ : CompletionRequest)
  : M nat ChatCompletion :=
  fun n => (S n, Return canned_completion).

Definition failing_remote (_ : option str) (_ : CompletionRequest)
  : M nat ChatCompletion :=
  fun n => (S n, Raise {| exc_type := lit "APIConnectionError";
                          exc_str := lit "Connection error." |}).
End Run.

(** * Words of the specification *)

(** [t] has no whitespace at either end. *)
Definition is_trimmed (t : str) : bool :=
  match t with [] => true | c :: _ => negb (isspace c) end
  && match rev t with [] => true | c :: _ => negb (isspace c) end.

(** [t] is [s] with its surrounding whitespace trimmed. *)
Definition trimming_of (s t : str) : Prop :=
  is_trimmed t = true /\
  exists pre post, s = pre ++ t ++ post
                   /\ forallb isspace pre = true /\ forallb isspace post = true.

(** [s] is [t] in some letter-casing. *)
Definition casing_of (s t : str) : Prop :=
  Forall2 (fun c d => c = ascii_lower d \/ c = ascii_upper d) s t.

(** The language argument is left out or is "auto" in any casing. *)
Inductive auto_language : option str -> Prop :=
| auto_omitted : auto_language None
| auto_cased s : casing_of s AUTO -> auto_language (Some s).

(** Some line of the text [p] begins with [prefix]. *)
Definition has_line_starting (prefix p : str) : bool :=
  existsb (fun l => startswith l prefix) (lines p).

(** The number of lines of [ls] that are exactly [line]. *)
Definition count_line (line : str) (ls : list str) : nat :=
  length (List.filter (str_eqb line) ls).

Definition TARGET_LANGUAGE_LABEL : str := lit "Target language:".

Definition no_LF (s : str) : bool := forallb (fun c => negb (c =? LF)) s.

(** The reading of the two language properties on the prompt text
    itself, for any instruction. *)
Definition auto_prompt_has_no_target_line (ul : str -> str)
    (instruction : str) (language : option str) : Prop :=
  auto_language language ->
  has_line_starting TARGET_LANGUAGE_LABEL
    (generate_code_prompt ul instruction language) = false.

Definition prompt_has_one_target_line (ul : str -> str)
    (instruction language : str) : Prop :=
  lower ul language <> AUTO ->
  count_line (TARGET_LANGUAGE ++ language)
    (lines (generate_code_prompt ul instruction (Some language))) = 1%nat.

(** The whitespace around the template literal: a line break and eight
    spaces. *)
Definition INDENT : str := LF :: lit "        ".

(** The text [call_groq] makes of what the remote call did. *)
Definition reply_text (r : outcome ChatCompletion) : str :=
  match r with
  | Return response =>
      match first_choice_text response with
      | Return text => text
      | Raise e => lit "Error: " ++ exc_str e
      end
  | Raise e => lit "Error: " ++ exc_str e
  end.

(** The one remote call made for a prompt, and the prompt of a request. *)
Definition remote_call {W : Type}
    (groq_create : option str -> CompletionRequest -> M W ChatCompletion)
    (self : ResponseGenerator) (p : str) : W -> W * outcome ChatCompletion :=
  groq_create (GROQ_API_KEY (config self)) (completion_request self p).

Definition request_prompt (unicode_lower : str -> str) (request : PromptRequest)
  : str :=
  generate_code_prompt unicode_lower (prompt request) (Some (language request)).

(** The reading of the remote-failure and remote-success properties for
    every message and every reply text, and of the handler property for
    every exception raised while a request is handled. *)
Definition failure_answered_200 {W : Type} (ul : str -> str)
    (groq_create : option str -> CompletionRequest -> M W ChatCompletion)
    (env : environ) (json : json_value) (request : PromptRequest)
    (w w' : W) (e : Exception) : Prop :=
  PromptRequest_validate json = Some request ->
  remote_call groq_create (generator (agent env)) (request_prompt ul request) w
  = (w', Raise e) ->
  app ul groq_create env (POST (lit "/api/generate") json) w
  = (w', Some {| status := 200;
                 body := JSON [(lit "response", lit "Error: " ++ exc_str e)] |}).

Definition success_answered_200 {W : Type} (ul : str -> str)
    (groq_create : option str -> CompletionRequest -> M W ChatCompletion)
    (env : environ) (json : json_value) (request : PromptRequest)
    (w w' : W) (response : ChatCompletion) (cs : list Choice) (c : Choice)
    (m : ChatMessage) (text : str) : Prop :=
  PromptRequest_validate json = Some request ->
  remote_call groq_create (generator (agent env)) (request_prompt ul request) w
  = (w', Return response) ->
  choices response = Some cs -> cs !! 0%nat = Some c ->
  message c = Some m -> content m = Some text ->
  app ul groq_create env (POST (lit "/api/generate") json) w
  = (w', Some {| status := 200; body := JSON [(lit "response", strip text)] |}).


(** * Observing the remote calls *)

(** The calls made to the remote service, oldest first: the key the
    client was built with and the request sent. *)
Abbreviation call_log := (list (option str * CompletionRequest)).

(** A remote that behaves as [groq_create] and records each call. *)
Definition logged {W : Type}
    (groq_create : option str -> CompletionRequest -> M W ChatCompletion)
  : option str -> CompletionRequest -> M (W * call_log) ChatCompletion :=
  fun key rq wl =>
    let (w', r) := groq_create key rq (fst wl) in
    ((w', snd wl ++ [(key, rq)]), r).

(** A request that reaches the generate route with a valid body. *)
Definition generation_of (req : http_request) : option PromptRequest :=
  match req with
  | POST path json =>
      if str_eqb path (lit "/api/generate") then PromptRequest_validate json
      else None
  | GET _ => None
  end.

(** The remote calls a request is expected to cause. *)
Definition calls_of (unicode_lower : str -> str) (env : environ)
    (req : http_request) : call_log :=
  match generation_of req with
  | Some request =>
      [(GROQ_API_KEY (Config_init env),
        completion_request (generator (agent env))
                           (request_prompt unicode_lower request))]
  | None => []
  end.

Module Cases.
(** An environment in which the service starts. *)
Definition env : environ := <[lit "GROQ_API_KEY" := lit "gsk_test"]> ∅.

(** A body with the given prompt and no other field. *)
Definition body_of (p : str) : json_value :=
  JObject (<[lit "prompt" := JString p]> ∅).

(** A remote whose first choice carries the given text, and a second
    choice that is never looked at. *)
Definition completion_of (text : str) : ChatCompletion :=
  {| choices :=
       Some [ {| message := Some {| content := Some text |} |};
              {| message := None |} ] |}.

Definition replying (text : str) (_ : option str) (_ : CompletionRequest)
  : M nat ChatCompletion :=
  fun n => (S n, Return (completion_of text)).

(** A remote that raises an exception with the given message. *)
Definition raising (m : str) (_ : option str) (_ : CompletionRequest)
  : M nat ChatCompletion :=
  fun n => (S n, Raise {| exc_type := lit "APIError"; exc_str := m |}).

(** A text holding a lone surrogate: "x" and U+D800. *)
Definition unencodable : str := [120; 55296].
End Cases.

(** * Properties *)

(** ** Strings *)

Lemma str_eqb_eq (s t : str) : str_eqb s t = true <-> s = t.
Proof.
  revert t; induction s as [|c s IH]; intros [|d t]; simpl; split;
    try congruence; try reflexivity.
  - intros [Hc Hs]%andb_true_iff. apply N.eqb_eq in Hc. apply IH in Hs.
    congruence.
  - intros [= -> ->]. rewrite N.eqb_refl. simpl. now apply IH.
Qed.

Lemma str_eqb_refl (s : str) : str_eqb s s = true.
Proof. now apply str_eqb_eq. Qed.

Lemma str_eqb_neq (s t : str) : str_eqb s t = false <-> s <> t.
Proof.
  destruct (str_eqb s t) eqn:E; split; try congruence.
  - apply str_eqb_eq in E. congruence.
  - intros _ ->. rewrite str_eqb_refl in E. discriminate.
Qed.

Lemma startswith_app (p s : str) : startswith (p ++ s) p = true.
Proof. induction p as [|c p IH]; simpl; [reflexivity|]. now rewrite N.eqb_refl. Qed.

Lemma startswith_first (c d : N) (s p : str) :
  c <> d -> startswith (c :: s) (d :: p) = false.
Proof. intros H. simpl. apply N.eqb_neq in H. now rewrite H. Qed.

Lemma lines_not_nil (s : str) : lines s <> [].
Proof.
  induction s as [|c s IH]; simpl; [discriminate|].
  destruct (c =? LF); [discriminate|]. destruct (lines s); discriminate.
Qed.

(** Splitting distributes over a line break. *)
Lemma lines_app_LF (a b : str) : lines (a ++ LF :: b) = lines a ++ lines b.
Proof.
  induction a as [|c a IH]; simpl.
  - reflexivity.
  - destruct (c =? LF); rewrite IH; [reflexivity|].
    pose proof (lines_not_nil a) as Ha. destruct (lines a); [contradiction|reflexivity].
Qed.

(** A prefix without line break stays on the first line. *)
Lemma lines_app_no_LF (p t : str) :
  no_LF p = true -> lines (p ++ t) = (p ++ hd [] (lines t)) :: tl (lines t).
Proof.
  induction p as [|c p IH]; simpl; intros H.
  - pose proof (lines_not_nil t). destruct (lines t); [contradiction|reflexivity].
  - apply andb_true_iff in H as [Hc Hp]. apply negb_true_iff in Hc.
    rewrite Hc, (IH Hp). reflexivity.
Qed.

Lemma lines_no_LF (p : str) : no_LF p = true -> lines p = [p].
Proof.
  intros H. rewrite <- (app_nil_r p) at 1. rewrite (lines_app_no_LF _ _ H).
  simpl. now rewrite app_nil_r.
Qed.

Lemma lines_blank_line (a b : str) :
  lines (a ++ BLANK_LINE ++ b) = lines a ++ [] :: lines b.
Proof. unfold BLANK_LINE. simpl. rewrite lines_app_LF. reflexivity. Qed.

(** *** Trimming *)

Lemma lstrip_split (s : str) :
  exists pre, s = pre ++ lstrip s /\ forallb isspace pre = true.
Proof.
  induction s as [|c s [pre [E Hp]]]; simpl.
  - now exists [].
  - destruct (isspace c) eqn:Hc.
    + exists (c :: pre). simpl. rewrite Hc, Hp. split; [congruence|reflexivity].
    + now exists [].
Qed.

Lemma lstrip_head (s : str) (c : N) (r : str) :
  lstrip s = c :: r -> isspace c = false.
Proof.
  induction s as [|d s IH]; simpl; [discriminate|].
  destruct (isspace d) eqn:Hd; [exact IH|]. congruence.
Qed.

Lemma forallb_rev {A} (f : A -> bool) (l : list A) :
  forallb f (rev l) = forallb f l.
Proof.
  induction l as [|x l IH]; simpl; [reflexivity|].
  rewrite forallb_app, IH. simpl. rewrite andb_true_r. apply andb_comm.
Qed.

Lemma rstrip_split (s : str) :
  exists post, s = rstrip s ++ post /\ forallb isspace post = true.
Proof.
  destruct (lstrip_split (rev s)) as [pre [E Hp]].
  exists (rev pre). split.
  - unfold rstrip. rewrite <- rev_app_distr, <- E. symmetry. apply rev_involutive.
  - now rewrite forallb_rev.
Qed.

Lemma strip_is_trimmed (s : str) : is_trimmed (strip s) = true.
Proof.
  unfold is_trimmed, strip. apply andb_true_iff. split.
  - destruct (rstrip_split (lstrip s)) as [post [E _]].
    destruct (rstrip (lstrip s)) as [|c r] eqn:R; [reflexivity|].
    simpl in E. apply lstrip_head in E. now rewrite E.
  - unfold rstrip. rewrite rev_involutive.
    destruct (lstrip (rev (lstrip s))) as [|c r] eqn:R; [reflexivity|].
    apply lstrip_head in R. now rewrite R.
Qed.

Lemma strip_trimming (s : str) : trimming_of s (strip s).
Proof.
  split; [apply strip_is_trimmed|].
  destruct (lstrip_split s) as [pre [E Hp]].
  destruct (rstrip_split (lstrip s)) as [post [E' Hq]].
  exists pre, post. unfold strip. rewrite <- E'. auto.
Qed.

Lemma lstrip_spaces (pre x : str) :
  forallb isspace pre = true -> lstrip (pre ++ x) = lstrip x.
Proof.
  induction pre as [|c pre IH]; simpl; [reflexivity|].
  intros [Hc Hp]%andb_true_iff. rewrite Hc. auto.
Qed.

Lemma lstrip_all_spaces (x : str) : forallb isspace x = true -> lstrip x = [].
Proof.
  intros H. rewrite <- (app_nil_r x). now rewrite lstrip_spaces.
Qed.

(** Trimming determines its result: [strip] is the only one. *)
Lemma trimming_unique (s t : str) : trimming_of s t -> t = strip s.
Proof.
  intros [Ht (pre & post & -> & Hp & Hq)].
  unfold strip. rewrite (lstrip_spaces _ _ Hp).
  apply andb_true_iff in Ht as [Hh Hl].
  destruct t as [|c t].
  - simpl. now rewrite (lstrip_all_spaces _ Hq).
  - apply negb_true_iff in Hh.
    change (lstrip ((c :: t) ++ post)) with (lstrip (c :: (t ++ post))).
    cbn [lstrip]. rewrite Hh.
    change (c :: t ++ post) with ((c :: t) ++ post).
    unfold rstrip. rewrite rev_app_distr, lstrip_spaces by now rewrite forallb_rev.
    destruct (rev (c :: t)) as [|d r] eqn:R.
    + apply (f_equal (@length N)) in R. rewrite length_rev in R. discriminate R.
    + apply negb_true_iff in Hl. cbn [lstrip]. rewrite Hl, <- R.
      symmetry. apply rev_involutive.
Qed.

(** The template literal of the source: 885 code points, the em dash
    at index 544; trimmed, 867 code points in 11 lines. *)
Example system_prompt_shape :
  length system_prompt = 885%nat
  /\ system_prompt !! 544%nat = Some EM_DASH
  /\ length (strip system_prompt) = 867%nat
  /\ length (lines (strip system_prompt)) = 11%nat.
Proof. vm_compute. repeat split. Qed.

Example strip_run :
  strip (lit "  sort a  list " ++ [LF; 160; 12288]) = lit "sort a  list"
  /\ strip (lit "   ") = [] /\ strip [] = [].
Proof. repeat split. Qed.

Example lines_run :
  lines (lit "a" ++ [LF; LF] ++ lit "b" ++ [LF]) = [lit "a"; []; lit "b"; []].
Proof. reflexivity. Qed.

Example join_run :
  join BLANK_LINE [lit "a"; lit "b"; lit "c"]
  = lit "a" ++ [LF; LF] ++ lit "b" ++ [LF; LF] ++ lit "c"
  /\ join BLANK_LINE [lit "a"] = lit "a".
Proof. split; reflexivity. Qed.

Example lower_run (ul : str -> str) :
  lower ul (lit "AUTO") = lit "auto" /\ lower ul (lit "Auto ") = lit "auto "
  /\ lower ul (lit "C++") = lit "c++"
  /\ lower ul [65; 8490] = ul [65; 8490].
Proof. repeat split. Qed.

(** ** The prompt of [generate_code] *)

Lemma casing_of_AUTO_lower (ul : str -> str) (s : str) :
  casing_of s AUTO -> lower ul s = AUTO.
Proof.
  unfold casing_of. change AUTO with [97; 117; 116; 111].
  intros H.
  repeat match goal with
         | H : Forall2 _ _ (_ :: _) |- _ => inversion H; clear H; subst
         | H : Forall2 _ _ [] |- _ => inversion H; clear H; subst
         | H : _ \/ _ |- _ => destruct H; subst
         end; reflexivity.
Qed.

Lemma auto_language_test (ul : str -> str) (language : option str) :
  auto_language language ->
  str_eqb (lower ul (default AUTO language)) AUTO = true.
Proof.
  intros [|s Hs]; simpl.
  - reflexivity.
  - rewrite (casing_of_AUTO_lower ul s Hs). reflexivity.
Qed.

Lemma generate_code_prompt_without (ul : str -> str) (instruction : str)
    (language : option str) :
  str_eqb (lower ul (default AUTO language)) AUTO = true ->
  generate_code_prompt ul instruction language
  = strip system_prompt ++ BLANK_LINE ++ INSTRUCTION ++ strip instruction.
Proof.
  intros H. unfold generate_code_prompt, generate_code_parts.
  rewrite H. reflexivity.
Qed.

Lemma generate_code_prompt_with (ul : str -> str) (instruction : str)
    (language : option str) :
  str_eqb (lower ul (default AUTO language)) AUTO = false ->
  generate_code_prompt ul instruction language
  = strip system_prompt ++ BLANK_LINE ++ (TARGET_LANGUAGE ++ default AUTO language)
      ++ BLANK_LINE ++ INSTRUCTION ++ strip instruction.
Proof.
  intros H. unfold generate_code_prompt, generate_code_parts.
  rewrite H. reflexivity.
Qed.

(** No line of the trimmed template begins with a capital T. *)
Lemma template_lines_not_T :
  forallb (fun l => negb (startswith l [84])) (lines (strip system_prompt)) = true.
Proof. vm_compute. reflexivity. Qed.

Lemma startswith_T (l p : str) :
  startswith l [84] = false -> startswith l (84 :: p) = false.
Proof.
  destruct l as [|c l]; [reflexivity|]. simpl.
  destruct (c =? 84); [discriminate|reflexivity].
Qed.

Lemma str_eqb_T (l p : str) :
  startswith l [84] = false -> str_eqb (84 :: p) l = false.
Proof.
  destruct l as [|c l]; [reflexivity|]. intros H.
  cbn [startswith] in H. rewrite andb_true_r in H.
  cbn [str_eqb]. rewrite (N.eqb_sym 84 c), H. reflexivity.
Qed.

Lemma existsb_none {A} (f g : A -> bool) (l : list A) :
  (forall x, g x = true -> f x = false) ->
  forallb g l = true -> existsb f l = false.
Proof.
  intros Hfg. induction l as [|x l IH]; simpl; [reflexivity|].
  intros [Hx Hl]%andb_true_iff. now rewrite (Hfg x Hx), IH.
Qed.

Lemma filter_none {A} (f g : A -> bool) (l : list A) :
  (forall x, g x = true -> f x = false) ->
  forallb g l = true -> List.filter f l = [].
Proof.
  intros Hfg. induction l as [|x l IH]; simpl; [reflexivity|].
  intros [Hx Hl]%andb_true_iff. now rewrite (Hfg x Hx), IH.
Qed.

Lemma template_no_target_line :
  existsb (fun l => startswith l TARGET_LANGUAGE_LABEL)
          (lines (strip system_prompt)) = false.
Proof.
  apply (existsb_none _ _ _ (fun l H => startswith_T l _ (proj1 (negb_true_iff _) H))
                      template_lines_not_T).
Qed.

Lemma template_count_target (language : str) :
  count_line (TARGET_LANGUAGE ++ language) (lines (strip system_prompt)) = 0%nat.
Proof.
  unfold count_line.
  rewrite (filter_none (str_eqb (TARGET_LANGUAGE ++ language)) _ _
             (fun l H => str_eqb_T l _ (proj1 (negb_true_iff _) H))
             template_lines_not_T).
  reflexivity.
Qed.

Lemma count_line_app (line : str) (a b : list str) :
  count_line line (a ++ b) = (count_line line a + count_line line b)%nat.
Proof. unfold count_line. now rewrite List.filter_app, length_app. Qed.

Lemma instruction_lines (t : str) :
  lines (INSTRUCTION ++ t) = (INSTRUCTION ++ hd [] (lines t)) :: tl (lines t).
Proof. apply lines_app_no_LF. reflexivity. Qed.

Lemma lines_without (t : str) :
  lines (strip system_prompt ++ BLANK_LINE ++ INSTRUCTION ++ t)
  = lines (strip system_prompt)
      ++ [] :: (INSTRUCTION ++ hd [] (lines t)) :: tl (lines t).
Proof. now rewrite lines_blank_line, instruction_lines. Qed.

Lemma lines_with (language t : str) :
  no_LF language = true ->
  lines (strip system_prompt ++ BLANK_LINE ++ (TARGET_LANGUAGE ++ language)
           ++ BLANK_LINE ++ INSTRUCTION ++ t)
  = lines (strip system_prompt)
      ++ [] :: (TARGET_LANGUAGE ++ language)
         :: [] :: (INSTRUCTION ++ hd [] (lines t)) :: tl (lines t).
Proof.
  intros H. rewrite !lines_blank_line, instruction_lines.
  rewrite (lines_no_LF (TARGET_LANGUAGE ++ language)); [reflexivity|].
  unfold no_LF in *. rewrite forallb_app, H. reflexivity.
Qed.

(** The instruction part begins with "I", the language part with "T". *)
Lemma instruction_line_not_target (t : str) :
  startswith (INSTRUCTION ++ t) TARGET_LANGUAGE_LABEL = false.
Proof. reflexivity. Qed.

Lemma instruction_line_not_language (language t : str) :
  str_eqb (TARGET_LANGUAGE ++ language) (INSTRUCTION ++ t) = false.
Proof. reflexivity. Qed.

Lemma empty_line_not_language (language : str) :
  str_eqb (TARGET_LANGUAGE ++ language) [] = false.
Proof. reflexivity. Qed.

(** C2, as stated, fails: with the language left out, an instruction
    that carries a line "Target language: y" of its own puts that line
    into the prompt. *)
Lemma auto_prompt_target_line_from_instruction :
  ~ auto_prompt_has_no_target_line Run.latin1_lower
      (lit "x" ++ [LF] ++ lit "Target language: y") None.
Proof.
  intros H. specialize (H auto_omitted). vm_compute in H. discriminate H.
Qed.

(** C2 (amended): when the language is left out or is "auto" in any
    letter-casing, the prompt is the trimmed template, one blank line and
    the instruction part, with no language part in between; it has a line
    beginning "Target language:" exactly when the trimmed instruction has
    such a line after its first line. *)
Theorem generate_code_auto_no_language_part (ul : str -> str)
    (instruction : str) (language : option str) :
  auto_language language ->
  generate_code_prompt ul instruction language
  = strip system_prompt ++ BLANK_LINE ++ INSTRUCTION ++ strip instruction
  /\ has_line_starting TARGET_LANGUAGE_LABEL
       (generate_code_prompt ul instruction language)
     = existsb (fun l => startswith l TARGET_LANGUAGE_LABEL)
               (tl (lines (strip instruction))).
Proof.
  intros H.
  pose proof (generate_code_prompt_without ul instruction language
                (auto_language_test ul language H)) as E.
  split; [exact E|].
  unfold has_line_starting. rewrite E, lines_without, existsb_app.
  rewrite template_no_target_line. cbn [existsb orb].
  rewrite instruction_line_not_target. reflexivity.
Qed.

Lemma generate_code_auto_no_language_part_run :
  auto_language (Some (lit "AuTo"))
  /\ generate_code_prompt Run.latin1_lower (lit " sort a list ") (Some (lit "AuTo"))
     = strip system_prompt ++ BLANK_LINE ++ INSTRUCTION ++ lit "sort a list"
  /\ has_line_starting TARGET_LANGUAGE_LABEL
       (generate_code_prompt Run.latin1_lower (lit " sort a list ")
          (Some (lit "AuTo"))) = false.
Proof.
  assert (Ha : auto_language (Some (lit "AuTo"))).
  { constructor. unfold casing_of.
    change (lit "AuTo") with [65; 117; 84; 111]. change AUTO with [97; 117; 116; 111].
    repeat (constructor; [first [left; reflexivity | right; reflexivity]|]).
    constructor. }
  split; [exact Ha|].
  exact (generate_code_auto_no_language_part Run.latin1_lower
           (lit " sort a list ") (Some (lit "AuTo")) Ha).
Defined.

(** C3, as stated, fails: an instruction that repeats the line makes it
    occur twice. *)
Lemma prompt_two_target_lines :
  ~ prompt_has_one_target_line Run.latin1_lower
      (lit "x" ++ [LF] ++ lit "Target language: py") (lit "py").
Proof.
  intros H. assert (Hl : lower Run.latin1_lower (lit "py") <> AUTO).
  { vm_compute. discriminate. }
  specialize (H Hl). vm_compute in H. discriminate H.
Qed.

(** C3 (amended): for a language whose lowercasing is not "auto", the
    prompt is the trimmed template, one blank line, "Target language: "
    followed by the language value as given, one blank line and the
    instruction part, so the language part is inserted exactly once; when
    the language value has no line break, the number of lines equal to
    "Target language: {language}" is one more than their number in the
    trimmed instruction after its first line. *)
Theorem generate_code_language_part (ul : str -> str)
    (instruction language : str) :
  lower ul language <> AUTO ->
  generate_code_prompt ul instruction (Some language)
  = strip system_prompt ++ BLANK_LINE ++ (TARGET_LANGUAGE ++ language)
      ++ BLANK_LINE ++ INSTRUCTION ++ strip instruction
  /\ (no_LF language = true ->
      count_line (TARGET_LANGUAGE ++ language)
        (lines (generate_code_prompt ul instruction (Some language)))
      = S (count_line (TARGET_LANGUAGE ++ language)
             (tl (lines (strip instruction))))).
Proof.
  intros H. apply str_eqb_neq in H.
  pose proof (generate_code_prompt_with ul instruction (Some language) H) as E.
  cbn [default] in E. split; [exact E|].
  intros Hl. rewrite E, (lines_with _ _ Hl), count_line_app, template_count_target.
  unfold count_line. cbn [List.filter].
  rewrite str_eqb_refl, empty_line_not_language, instruction_line_not_language.
  reflexivity.
Qed.

Lemma generate_code_language_part_run :
  lower Run.latin1_lower (lit "Python") <> AUTO
  /\ no_LF (lit "Python") = true
  /\ generate_code_prompt Run.latin1_lower (lit " sort a list ") (Some (lit "Python"))
     = strip system_prompt ++ BLANK_LINE ++ lit "Target language: Python"
         ++ BLANK_LINE ++ INSTRUCTION ++ lit "sort a list"
  /\ count_line (lit "Target language: Python")
       (lines (generate_code_prompt Run.latin1_lower (lit " sort a list ")
                 (Some (lit "Python")))) = 1%nat.
Proof.
  assert (Hl : lower Run.latin1_lower (lit "Python") <> AUTO).
  { vm_compute. discriminate. }
  split; [exact Hl|]. split; [reflexivity|].
  destruct (generate_code_language_part Run.latin1_lower (lit " sort a list ")
              (lit "Python") Hl) as [E C].
  split; [exact E|]. exact (C eq_refl).
Defined.

(** C4: the last of the joined parts is "Instruction: " followed by the
    instruction with its surrounding whitespace trimmed, the prompt ends
    with it after one blank line, and the parts (trimmed template, the
    language part when there is one, instruction part) are joined by one
    blank line each. *)
Theorem generate_code_prompt_segments (ul : str -> str)
    (instruction : str) (language : option str) :
  trimming_of instruction (strip instruction)
  /\ last (generate_code_parts ul instruction language)
     = Some (INSTRUCTION ++ strip instruction)
  /\ (exists before,
        generate_code_prompt ul instruction language
        = before ++ BLANK_LINE ++ INSTRUCTION ++ strip instruction)
  /\ (generate_code_prompt ul instruction language
      = strip system_prompt ++ BLANK_LINE ++ INSTRUCTION ++ strip instruction
      \/ exists l,
           language = Some l
           /\ generate_code_prompt ul instruction language
              = strip system_prompt ++ BLANK_LINE ++ (TARGET_LANGUAGE ++ l)
                  ++ BLANK_LINE ++ INSTRUCTION ++ strip instruction).
Proof.
  split; [apply strip_trimming|].
  destruct (str_eqb (lower ul (default AUTO language)) AUTO) eqn:E.
  - pose proof (generate_code_prompt_without ul instruction language E) as P.
    split; [|split].
    + unfold generate_code_parts. rewrite E. reflexivity.
    + exists (strip system_prompt). exact P.
    + left. exact P.
  - pose proof (generate_code_prompt_with ul instruction language E) as P.
    split; [|split].
    + unfold generate_code_parts. rewrite E. reflexivity.
    + exists (strip system_prompt ++ BLANK_LINE
                ++ TARGET_LANGUAGE ++ default AUTO language).
      rewrite P. now rewrite <- !app_assoc.
    + right. destruct language as [l|].
      * exists l. split; [reflexivity|exact P].
      * discriminate E.
Qed.

(** ** The prompts of [review_code] and [explain_code] *)

Lemma generate_code_prompt_template (ul : str -> str) (instruction : str)
    (language : option str) :
  exists rest,
    generate_code_prompt ul instruction language = strip system_prompt ++ rest.
Proof.
  destruct (str_eqb (lower ul (default AUTO language)) AUTO) eqn:E.
  - rewrite (generate_code_prompt_without _ _ _ E). eauto.
  - rewrite (generate_code_prompt_with _ _ _ E). eauto.
Qed.

Lemma system_prompt_layout :
  system_prompt = INDENT ++ strip system_prompt ++ INDENT.
Proof. vm_compute. reflexivity. Qed.

(** ** The remote-call wrapper and the generate route *)

Section Runs.
Context {W : Type}.
Variable unicode_lower : str -> str.
Variable groq_create : option str -> CompletionRequest -> M W ChatCompletion.
Variable env : environ.

Lemma call_groq_run (self : ResponseGenerator) (p : str) (w : W) :
  call_groq groq_create self p w
  = (fst (remote_call groq_create self p w),
     Return (reply_text (snd (remote_call groq_create self p w)))).
Proof.
  unfold call_groq, try_except, bind, lift, ret, remote_call.
  destruct (groq_create _ _ w) as [w' [response|e]]; simpl; [|reflexivity].
  destruct (first_choice_text response); reflexivity.
Qed.

(** A completion with null or empty choices, or whose first choice has a
    null message or null content, ends in the [except] branch as well. *)
Example call_groq_null_choices (self : ResponseGenerator) (p : str) (w : W) :
  snd (remote_call groq_create self p w) = Return {| choices := None |} ->
  snd (call_groq groq_create self p w)
  = Return (lit "Error: 'NoneType' object is not subscriptable").
Proof. intros H. rewrite call_groq_run. simpl. now rewrite H. Qed.

Example call_groq_no_choice (self : ResponseGenerator) (p : str) (w : W) :
  snd (remote_call groq_create self p w) = Return {| choices := Some [] |} ->
  snd (call_groq groq_create self p w)
  = Return (lit "Error: list index out of range").
Proof. intros H. rewrite call_groq_run. simpl. now rewrite H. Qed.

Example call_groq_null_message (self : ResponseGenerator) (p : str) (w : W)
    (rest : list Choice) :
  snd (remote_call groq_create self p w)
  = Return {| choices := Some ({| message := None |} :: rest) |} ->
  snd (call_groq groq_create self p w)
  = Return (lit "Error: 'NoneType' object has no attribute 'content'").
Proof. intros H. rewrite call_groq_run. simpl. now rewrite H. Qed.

Example call_groq_no_content (self : ResponseGenerator) (p : str) (w : W)
    (rest : list Choice) :
  snd (remote_call groq_create self p w)
  = Return {| choices :=
                Some ({| message := Some {| content := None |} |} :: rest) |} ->
  snd (call_groq groq_create self p w)
  = Return (lit "Error: 'NoneType' object has no attribute 'strip'").
Proof. intros H. rewrite call_groq_run. simpl. now rewrite H. Qed.

Lemma generate_response_run (request : PromptRequest) (w : W) :
  let r := remote_call groq_create (generator (agent env))
                       (request_prompt unicode_lower request) w in
  generate_response unicode_lower groq_create env request w
  = (fst r, Returned [(lit "response", reply_text (snd r))]).
Proof.
  unfold generate_response, generate_response_with, generate_code.
  rewrite call_groq_run. reflexivity.
Qed.

Lemma generate_path :
  str_eqb (lit "/api/generate") (API_PREFIX ++ lit "/generate") = true.
Proof. reflexivity. Qed.

Lemma app_generate_run (json : json_value) (request : PromptRequest) (w : W) :
  PromptRequest_validate json = Some request ->
  let r := remote_call groq_create (generator (agent env))
                       (request_prompt unicode_lower request) w in
  app unicode_lower groq_create env (POST (lit "/api/generate") json) w
  = (fst r, Some (render (Returned [(lit "response", reply_text (snd r))]))).
Proof.
  intros Hv. unfold app. rewrite generate_path, Hv, generate_response_run.
  reflexivity.
Qed.
End Runs.

(** Rendering a returned text: 200 when it can be encoded, the server
    error when it cannot. *)
Lemma render_response (text : str) :
  render (Returned [(lit "response", text)])
  = if utf8_encodable text
    then {| status := 200; body := JSON [(lit "response", text)] |}
    else INTERNAL_SERVER_ERROR.
Proof.
  unfold render, response_of, JSONResponse, json_encodable.
  cbn [forallb fst snd].
  change (utf8_encodable (lit "response")) with true.
  cbn [andb]. rewrite andb_true_r. destruct (utf8_encodable text); reflexivity.
Qed.

Lemma render_detail (s : Z) (d : str) :
  render (HTTPException s d)
  = if utf8_encodable d
    then {| status := s; body := JSON [(lit "detail", d)] |}
    else INTERNAL_SERVER_ERROR.
Proof.
  unfold render, response_of, JSONResponse, json_encodable.
  cbn [forallb fst snd].
  change (utf8_encodable (lit "detail")) with true.
  cbn [andb]. rewrite andb_true_r. destruct (utf8_encodable d); reflexivity.
Qed.

Lemma utf8_encodable_Error (m : str) :
  utf8_encodable (lit "Error: " ++ m) = utf8_encodable m.
Proof. unfold utf8_encodable. now rewrite forallb_app. Qed.

(** C1, as stated, fails: when the message of the exception holds a lone
    surrogate, the returned dict cannot be encoded and the answer is the
    server error, not a 200. *)
Lemma failure_unencodable_message :
  ~ failure_answered_200 Run.latin1_lower (Cases.raising Cases.unencodable)
      Cases.env (Cases.body_of (lit "hi")) (PromptRequest_init (lit "hi") None)
      0%nat 1%nat {| exc_type := lit "APIError"; exc_str := Cases.unencodable |}.
Proof.
  intros H. specialize (H eq_refl eq_refl).
  apply (f_equal (fun a => status <$> snd a)) in H. vm_compute in H.
  discriminate H.
Qed.

(** C1 (amended): when the remote call made for a request raises [e], the
    wrapper returns "Error: " followed by [str(e)]; when that message can
    be encoded as UTF-8, POST /api/generate answers with status 200 and the
    body {"response": "Error: " + str(e)}; when it cannot, the answer is
    the framework's plain-text 500, without a detail field. *)
Theorem generate_remote_failure {W : Type} (ul : str -> str)
    (groq_create : option str -> CompletionRequest -> M W ChatCompletion)
    (env : environ) (json : json_value) (request : PromptRequest)
    (w w' : W) (e : Exception) :
  PromptRequest_validate json = Some request ->
  remote_call groq_create (generator (agent env)) (request_prompt ul request) w
  = (w', Raise e) ->
  call_groq groq_create (generator (agent env)) (request_prompt ul request) w
  = (w', Return (lit "Error: " ++ exc_str e))
  /\ (utf8_encodable (exc_str e) = true ->
      app ul groq_create env (POST (lit "/api/generate") json) w
      = (w', Some {| status := 200;
                     body := JSON [(lit "response", lit "Error: " ++ exc_str e)] |}))
  /\ (utf8_encodable (exc_str e) = false ->
      app ul groq_create env (POST (lit "/api/generate") json) w
      = (w', Some INTERNAL_SERVER_ERROR)).
Proof.
  intros Hv Hr. split; [|split]; intros.
  - rewrite call_groq_run, Hr. reflexivity.
  - rewrite (app_generate_run ul groq_create env json request w Hv), Hr.
    cbn [fst snd reply_text]. rewrite render_response, utf8_encodable_Error.
    now rewrite H.
  - rewrite (app_generate_run ul groq_create env json request w Hv), Hr.
    cbn [fst snd reply_text]. rewrite render_response, utf8_encodable_Error.
    now rewrite H.
Qed.

Lemma generate_remote_failure_run :
  app Run.latin1_lower Run.failing_remote Cases.env
      (POST (lit "/api/generate") (Cases.body_of (lit " hi "))) 0%nat
  = (1%nat, Some {| status := 200;
                    body := JSON [(lit "response", lit "Error: Connection error.")] |}).
Proof.
  exact (proj1 (proj2
    (generate_remote_failure Run.latin1_lower Run.failing_remote Cases.env
       (Cases.body_of (lit " hi ")) (PromptRequest_init (lit " hi ") None)
       0%nat 1%nat
       {| exc_type := lit "APIConnectionError";
          exc_str := lit "Connection error." |}
       eq_refl eq_refl)) eq_refl).
Defined.

(** C5, as stated, fails: a reply whose text holds a lone surrogate is
    returned by the wrapper, but the dict cannot be encoded and the answer
    is the server error. *)
Lemma success_unencodable_reply :
  ~ success_answered_200 Run.latin1_lower (Cases.replying Cases.unencodable)
      Cases.env (Cases.body_of (lit "hi")) (PromptRequest_init (lit "hi") None)
      0%nat 1%nat (Cases.completion_of Cases.unencodable)
      [ {| message := Some {| content := Some Cases.unencodable |} |};
        {| message := None |} ]
      {| message := Some {| content := Some Cases.unencodable |} |}
      {| content := Some Cases.unencodable |} Cases.unencodable.
Proof.
  intros H. specialize (H eq_refl eq_refl eq_refl eq_refl eq_refl eq_refl).
  apply (f_equal (fun a => status <$> snd a)) in H. vm_compute in H.
  discriminate H.
Qed.

(** C5 (amended): when the remote call made for a request returns a
    completion whose first choice carries the text [text], the wrapper
    returns [text] with its surrounding whitespace trimmed; when the
    trimmed text can be encoded as UTF-8, POST /api/generate answers with
    status 200 and the body {"response": that text}; when it cannot, the
    answer is the framework's plain-text 500. *)
Theorem generate_remote_success {W : Type} (ul : str -> str)
    (groq_create : option str -> CompletionRequest -> M W ChatCompletion)
    (env : environ) (json : json_value) (request : PromptRequest)
    (w w' : W) (response : ChatCompletion) (cs : list Choice) (c : Choice)
    (m : ChatMessage) (text : str) :
  PromptRequest_validate json = Some request ->
  remote_call groq_create (generator (agent env)) (request_prompt ul request) w
  = (w', Return response) ->
  choices response = Some cs -> cs !! 0%nat = Some c ->
  message c = Some m -> content m = Some text ->
  trimming_of text (strip text)
  /\ call_groq groq_create (generator (agent env)) (request_prompt ul request) w
     = (w', Return (strip text))
  /\ (utf8_encodable (strip text) = true ->
      app ul groq_create env (POST (lit "/api/generate") json) w
      = (w', Some {| status := 200;
                     body := JSON [(lit "response", strip text)] |}))
  /\ (utf8_encodable (strip text) = false ->
      app ul groq_create env (POST (lit "/api/generate") json) w
      = (w', Some INTERNAL_SERVER_ERROR)).
Proof.
  intros Hv Hr Hcs Hc Hm Ht.
  assert (Hf : first_choice_text response = Return (strip text)).
  { unfold first_choice_text. now rewrite Hcs, Hc, Hm, Ht. }
  split; [apply strip_trimming|]. split; [|split]; intros.
  - rewrite call_groq_run, Hr. simpl. now rewrite Hf.
  - rewrite (app_generate_run ul groq_create env json request w Hv), Hr.
    cbn [fst snd reply_text]. rewrite Hf, render_response. now rewrite H.
  - rewrite (app_generate_run ul groq_create env json request w Hv), Hr.
    cbn [fst snd reply_text]. rewrite Hf, render_response. now rewrite H.
Qed.

Lemma generate_remote_success_run :
  app Run.latin1_lower Run.canned_remote Cases.env
      (POST (lit "/api/generate")
            (JObject (<[lit "language" := JString (lit "Python")]>
                        (<[lit "prompt" := JString (lit " hi ")]> ∅))))
      0%nat
  = (1%nat, Some {| status := 200;
                    body := JSON [(lit "response", lit "print(1)")] |}).
Proof.
  exact (proj1 (proj2 (proj2
    (generate_remote_success Run.latin1_lower Run.canned_remote Cases.env
       (JObject (<[lit "language" := JString (lit "Python")]>
                   (<[lit "prompt" := JString (lit " hi ")]> ∅)))
       (PromptRequest_init (lit " hi ") (Some (lit "Python"))) 0%nat 1%nat
       Run.canned_completion
       [ {| message := Some {| content := Some (lit "  print(1)" ++ [LF]) |} |} ]
       {| message := Some {| content := Some (lit "  print(1)" ++ [LF]) |} |}
       {| content := Some (lit "  print(1)" ++ [LF]) |}
       (lit "  print(1)" ++ [LF])
       eq_refl eq_refl eq_refl eq_refl eq_refl eq_refl))) eq_refl).
Defined.

Lemma remote_call_logged {W : Type}
    (groq_create : option str -> CompletionRequest -> M W ChatCompletion)
    (self : ResponseGenerator) (p : str) (w : W) (log : call_log) :
  remote_call (logged groq_create) self p (w, log)
  = ((fst (remote_call groq_create self p w),
      log ++ [(GROQ_API_KEY (config self), completion_request self p)]),
     snd (remote_call groq_create self p w)).
Proof.
  unfold remote_call, logged. simpl.
  destruct (groq_create _ _ w) as [w' r]. reflexivity.
Qed.

Lemma app_logged {W : Type} (ul : str -> str)
    (groq_create : option str -> CompletionRequest -> M W ChatCompletion)
    (env : environ) (req : http_request) (w : W) (log : call_log) :
  app ul (logged groq_create) env req (w, log)
  = ((fst (app ul groq_create env req w), log ++ calls_of ul env req),
     snd (app ul groq_create env req w)).
Proof.
  unfold calls_of, generation_of. destruct req as [path|path json].
  - rewrite app_nil_r. unfold app.
    destruct (str_eqb path (lit "/")); [reflexivity|].
    destruct (str_eqb path (lit "/health")); reflexivity.
  - unfold app. change (API_PREFIX ++ lit "/generate") with (lit "/api/generate").
    destruct (str_eqb path (lit "/api/generate")); [|now rewrite app_nil_r].
    destruct (PromptRequest_validate json) as [request|]; [|now rewrite app_nil_r].
    rewrite !generate_response_run, remote_call_logged. reflexivity.
Qed.

(** What the route's [except] branch does with an exception of the
    agent call, for any agent. *)
Lemma generate_response_with_except {W : Type}
    (agent_generate_code : str -> option str -> M W str)
    (request : PromptRequest) (w w' : W) (e : Exception) :
  agent_generate_code (prompt request) (Some (language request)) w
  = (w', Raise e) ->
  generate_response_with agent_generate_code request w
  = (w', HTTPException 500 (exc_str e)).
Proof. intros H. unfold generate_response_with. now rewrite H. Qed.




(** C7: [review_code] and [explain_code] each invoke the client once, on
    the request whose only message is the user message holding the
    template followed by their header and the code as given, and return
    what the wrapper makes of the reply to that request.  The template
    that begins the prompts of [generate_code] is this one with its
    surrounding whitespace trimmed, so both prompts contain it before the
    header. *)
Theorem review_explain_prompts {W : Type}
    (groq_create : option str -> CompletionRequest -> M W ChatCompletion)
    (self : CodeAgent) (code : str) (w : W) (log : call_log) :
  let cfg := config (generator self) in
  let sent p :=
    (GROQ_API_KEY cfg,
     {| messages := [ {| role := lit "user"; msg_content := p |} ];
        model := MODEL_ID cfg; max_tokens := MAX_TOKENS cfg;
        temperature := TEMPERATURE cfg |}) in
  let review_prompt :=
    system_prompt ++ (BLANK_LINE ++ lit "Review this code and suggest improvements:"
                        ++ BLANK_LINE) ++ code in
  let explain_prompt :=
    system_prompt ++ (BLANK_LINE ++ lit "Explain this code step by step:"
                        ++ BLANK_LINE) ++ code in
  snd (fst (review_code (logged groq_create) self code (w, log)))
  = log ++ [sent review_prompt]
  /\ snd (fst (explain_code (logged groq_create) self code (w, log)))
     = log ++ [sent explain_prompt]
  /\ review_code groq_create self code w
     = (fst (groq_create (fst (sent review_prompt)) (snd (sent review_prompt)) w),
        Return (reply_text
                  (snd (groq_create (fst (sent review_prompt))
                                    (snd (sent review_prompt)) w))))
  /\ explain_code groq_create self code w
     = (fst (groq_create (fst (sent explain_prompt)) (snd (sent explain_prompt)) w),
        Return (reply_text
                  (snd (groq_create (fst (sent explain_prompt))
                                    (snd (sent explain_prompt)) w))))
  /\ (forall ul instruction language, exists rest,
        generate_code_prompt ul instruction language
        = strip system_prompt ++ rest)
  /\ forallb isspace INDENT = true
  /\ review_prompt
     = INDENT ++ strip system_prompt ++ INDENT ++ REVIEW_HEADER ++ code
  /\ explain_prompt
     = INDENT ++ strip system_prompt ++ INDENT ++ EXPLAIN_HEADER ++ code.
Proof.
  intros cfg sent review_prompt explain_prompt.
  split; [|split; [|split; [|split; [|split; [|split; [|split]]]]]].
  - unfold review_code. rewrite call_groq_run, remote_call_logged. reflexivity.
  - unfold explain_code. rewrite call_groq_run, remote_call_logged. reflexivity.
  - unfold review_code. rewrite call_groq_run. reflexivity.
  - unfold explain_code. rewrite call_groq_run. reflexivity.
  - intros ul instruction language. apply generate_code_prompt_template.
  - reflexivity.
  - unfold review_prompt. rewrite system_prompt_layout at 1.
    unfold REVIEW_HEADER. now rewrite <- !app_assoc.
  - unfold explain_prompt. rewrite system_prompt_layout at 1.
    unfold EXPLAIN_HEADER. now rewrite <- !app_assoc.
Qed.

(** C8: with the agent of the repository the call made by the route
    always returns a text, whatever the remote does, so the route always
    returns {"response": text} and never raises its HTTP exception; an
    answer of the application is a 200 or the framework's plain-text
    server error, never the handler's 500 with a detail field. *)
Theorem generate_never_raises {W : Type} (ul : str -> str)
    (groq_create : option str -> CompletionRequest -> M W ChatCompletion)
    (env : environ) (w : W) :
  (forall self p, exists w' text,
      call_groq groq_create self p w = (w', Return text))
  /\ (forall request, exists w' text,
        generate_code ul groq_create (agent env) (prompt request)
          (Some (language request)) w = (w', Return text)
        /\ generate_response ul groq_create env request w
           = (w', Returned [(lit "response", text)]))
  /\ (forall request s d,
        snd (generate_response ul groq_create env request w) <> HTTPException s d)
  /\ (forall req r,
        snd (app ul groq_create env req w) = Some r ->
        (status r = 200%Z \/ r = INTERNAL_SERVER_ERROR)
        /\ forall d, body r <> JSON [(lit "detail", d)]).
Proof.
  split; [|split; [|split]].
  - intros self p. rewrite call_groq_run. eauto.
  - intros request. unfold generate_response, generate_response_with, generate_code.
    rewrite call_groq_run. eauto.
  - intros request s d. rewrite generate_response_run. discriminate.
  - intros [path|path json] r; unfold app.
    + destruct (str_eqb path (lit "/")).
      { intros [= <-]. split; [now left|discriminate]. }
      destruct (str_eqb path (lit "/health")); [|discriminate].
      intros [= <-]. split; [now left|discriminate].
    + destruct (str_eqb path _); [|discriminate].
      destruct (PromptRequest_validate json) as [request|]; [|discriminate].
      rewrite generate_response_run. cbn [snd]. rewrite render_response.
      destruct (utf8_encodable _); intros [= <-];
        (split; [auto|discriminate]).
Qed.

(** ** Configuration *)

(** The remote request carries the configured model, cap and temperature. *)
Lemma completion_request_config (env : environ) (p : str) :
  let rq := completion_request (generator (agent env)) p in
  model rq = MODEL_ID (Config_init env)
  /\ max_tokens rq = 1500%Z /\ temperature rq = 0.5%Q.
Proof. repeat split. Qed.

(** The service starts, with [agent env] as its agent, exactly when the
    environment has an API key. *)
Lemma CodeAgent_new_started (env : environ) :
  (forall k, env !! lit "GROQ_API_KEY" = Some k ->
             CodeAgent_new (Config_init env) = Return (agent env))
  /\ (env !! lit "GROQ_API_KEY" = None ->
      CodeAgent_new (Config_init env) = Raise GroqError_no_key).
Proof.
  unfold CodeAgent_new, agent, Config_init, getenv. cbn [GROQ_API_KEY].
  split; [intros k ->|intros ->]; reflexivity.
Qed.

(** C9: a configuration is its four values: the API key is the
    environment's GROQ_API_KEY, absent when the variable is unset (no
    default, no check); the model identifier is the environment's MODEL_ID,
    or "llama3-8b-8192" when unset; the token cap is 1500; the temperature
    is 0.5. *)
Theorem Config_values (env : environ) :
  (forall c : Config,
      c = {| GROQ_API_KEY := GROQ_API_KEY c; MODEL_ID := MODEL_ID c;
             MAX_TOKENS := MAX_TOKENS c; TEMPERATURE := TEMPERATURE c |})
  /\ GROQ_API_KEY (Config_init env) = env !! lit "GROQ_API_KEY"
  /\ GROQ_API_KEY (Config_init (delete (lit "GROQ_API_KEY") env)) = None
  /\ MODEL_ID (Config_init env)
     = default (lit "llama3-8b-8192") (env !! lit "MODEL_ID")
  /\ MODEL_ID (Config_init (delete (lit "MODEL_ID") env)) = lit "llama3-8b-8192"
  /\ (forall v, MODEL_ID (Config_init (<[lit "MODEL_ID" := v]> env)) = v)
  /\ MAX_TOKENS (Config_init env) = 1500%Z
  /\ TEMPERATURE (Config_init env) = 0.5%Q
  /\ (TEMPERATURE (Config_init env) == 1 # 2)%Q.
Proof.
  split; [intros []; reflexivity|].
  split; [reflexivity|].
  split; [apply lookup_delete_eq|].
  split; [unfold Config_init, getenv_default; simpl;
          destruct (env !! lit "MODEL_ID"); reflexivity|].
  split; [unfold Config_init, getenv_default; simpl;
          now rewrite lookup_delete_eq|].
  split; [intros v; unfold Config_init, getenv_default; simpl;
          now rewrite lookup_insert_eq|].
  repeat split.
Qed.

(** ** The informational routes *)

(** C10: after any sequence of requests, from any world and with any
    remote, GET / answers 200 with the running message and the docs path,
    and GET /health answers 200 with the healthy status and the service
    name; neither touches the world. *)
Theorem root_health_fixed {W : Type} (ul : str -> str)
    (groq_create : option str -> CompletionRequest -> M W ChatCompletion)
    (env : environ) (prior : list http_request) (w : W) :
  let w' := serve_all ul groq_create env prior w in
  app ul groq_create env (GET (lit "/")) w'
  = (w', Some {| status := 200;
                 body := JSON [(lit "message", lit "AI Code Generator API is running!");
                               (lit "docs", lit "/docs")] |})
  /\ app ul groq_create env (GET (lit "/health")) w'
     = (w', Some {| status := 200;
                    body := JSON [(lit "status", lit "healthy");
                                  (lit "service", lit "CodeGenerator API")] |}).
Proof. split; reflexivity. Qed.

(** A run: two generations against the failing remote, then the two
    informational routes. *)
Example root_health_after_failures :
  let prior := [POST (lit "/api/generate") (Cases.body_of (lit "a"));
                POST (lit "/api/generate") (Cases.body_of (lit "b"));
                GET (lit "/nowhere")] in
  let w := serve_all Run.latin1_lower Run.failing_remote ∅ prior 0%nat in
  w = 2%nat
  /\ snd (app Run.latin1_lower Run.failing_remote ∅ (GET (lit "/health")) w)
     = Some (render health).
Proof. vm_compute. split; reflexivity. Qed.

(** * Further properties of the code *)

(** ** Trimming of the instruction *)

Lemma strip_padding (pre s post : str) :
  forallb isspace pre = true -> forallb isspace post = true ->
  strip (pre ++ s ++ post) = strip s.
Proof.
  intros Hp Hq. symmetry. apply trimming_unique.
  destruct (strip_trimming s) as [Ht (p & q & E & Hp' & Hq')].
  split; [exact Ht|].
  exists (pre ++ p), (q ++ post). rewrite !forallb_app, Hp, Hq, Hp', Hq'.
  repeat split. rewrite E at 1. now rewrite <- !app_assoc.
Qed.

Lemma strip_idempotent (s : str) : strip (strip s) = strip s.
Proof.
  symmetry. apply trimming_unique. split; [apply strip_is_trimmed|].
  exists [], []. now rewrite app_nil_r.
Qed.

Lemma generate_code_prompt_strip (ul : str -> str) (i j : str)
    (language : option str) :
  strip i = strip j ->
  generate_code_prompt ul i language = generate_code_prompt ul j language.
Proof.
  intros E. unfold generate_code_prompt, generate_code_parts. now rewrite E.
Qed.

(** X1: whitespace around the instruction never reaches the prompt:
    padding an instruction with whitespace on either side, or trimming it
    beforehand, gives the same prompt. *)
Theorem generate_code_prompt_padding (ul : str -> str)
    (pre instruction post : str) (language : option str) :
  forallb isspace pre = true -> forallb isspace post = true ->
  generate_code_prompt ul (pre ++ instruction ++ post) language
  = generate_code_prompt ul instruction language
  /\ generate_code_prompt ul (strip instruction) language
     = generate_code_prompt ul instruction language.
Proof.
  intros Hp Hq. split; apply generate_code_prompt_strip.
  - now apply strip_padding.
  - apply strip_idempotent.
Qed.

Lemma generate_code_prompt_padding_run :
  generate_code_prompt Run.latin1_lower
    ([LF; 9] ++ lit "sort  a list" ++ [32; 160; LF]) (Some (lit "Go"))
  = generate_code_prompt Run.latin1_lower (lit "sort  a list") (Some (lit "Go")).
Proof.
  exact (proj1 (generate_code_prompt_padding Run.latin1_lower [LF; 9]
                  (lit "sort  a list") [32; 160; LF] (Some (lit "Go"))
                  eq_refl eq_refl)).
Defined.

(** ** The language test *)

Lemma ascii_lower_letter (c d : N) :
  97 <= d -> d <= 122 -> ascii_lower c = d -> c = d \/ c = d - 32.
Proof.
  unfold ascii_lower. intros Hl Hu.
  destruct ((65 <=? c) && (c <=? 90)) eqn:E; intros <-.
  - right. lia.
  - now left.
Qed.

Lemma lower_ascii_AUTO (ul : str -> str) (s : str) :
  forallb is_ascii s = true -> lower ul s = AUTO -> casing_of s AUTO.
Proof.
  unfold lower. intros ->. unfold casing_of. change AUTO with [97; 117; 116; 111].
  destruct s as [|c1 [|c2 [|c3 [|c4 [|c5 s]]]]]; try discriminate.
  cbn [List.map]. intros [= H1 H2 H3 H4].
  apply ascii_lower_letter in H1; [|lia..].
  apply ascii_lower_letter in H2; [|lia..].
  apply ascii_lower_letter in H3; [|lia..].
  apply ascii_lower_letter in H4; [|lia..].
  repeat (constructor;
          [match goal with
           | H : ?c = _ \/ _ |- ?c = _ \/ _ => destruct H as [->| ->]
           end; [left|right]; reflexivity|]).
  constructor.
Qed.

(** X2: the language value is compared as given, without trimming: for a
    pure-ASCII value the language part is left out exactly when the value
    is "auto" in some casing, and inserted for every other value, such
    as "auto" with a space around it or the empty string. *)
Theorem generate_code_ascii_language (ul : str -> str)
    (instruction language : str) :
  forallb is_ascii language = true ->
  (casing_of language AUTO ->
   generate_code_prompt ul instruction (Some language)
   = strip system_prompt ++ BLANK_LINE ++ INSTRUCTION ++ strip instruction)
  /\ (~ casing_of language AUTO ->
      generate_code_prompt ul instruction (Some language)
      = strip system_prompt ++ BLANK_LINE ++ (TARGET_LANGUAGE ++ language)
          ++ BLANK_LINE ++ INSTRUCTION ++ strip instruction).
Proof.
  intros Ha. split; intros Hc.
  - apply generate_code_prompt_without.
    change (str_eqb (lower ul language) AUTO = true).
    rewrite (casing_of_AUTO_lower ul language Hc). reflexivity.
  - apply (generate_code_prompt_with ul instruction (Some language)).
    change (str_eqb (lower ul language) AUTO = false).
    apply str_eqb_neq. intros E. apply Hc.
    exact (lower_ascii_AUTO ul language Ha E).
Qed.

Lemma generate_code_ascii_language_run :
  generate_code_prompt Run.latin1_lower (lit "hi") (Some (lit " auto"))
  = strip system_prompt ++ BLANK_LINE ++ lit "Target language:  auto"
      ++ BLANK_LINE ++ lit "Instruction: hi"
  /\ generate_code_prompt Run.latin1_lower (lit "hi") (Some [])
     = strip system_prompt ++ BLANK_LINE ++ lit "Target language: "
         ++ BLANK_LINE ++ lit "Instruction: hi".
Proof.
  split.
  - refine (proj2 (generate_code_ascii_language Run.latin1_lower (lit "hi")
                     (lit " auto") eq_refl) _).
    intros H. apply Forall2_length in H. vm_compute in H. discriminate H.
  - refine (proj2 (generate_code_ascii_language Run.latin1_lower (lit "hi")
                     [] eq_refl) _).
    intros H. apply Forall2_length in H. vm_compute in H. discriminate H.
Defined.

(** ** Empty instructions *)



(** ** The prompt determines its inputs *)

Lemma first_line_break (a b r1 r2 : str) :
  no_LF a = true -> no_LF b = true ->
  a ++ LF :: r1 = b ++ LF :: r2 -> a = b /\ r1 = r2.
Proof.
  revert b. induction a as [|c a IH]; intros [|d b] Ha Hb E.
  - injection E as ->. auto.
  - simpl in E, Hb. injection E as <- _. discriminate Hb.
  - simpl in E, Ha. injection E as -> _. discriminate Ha.
  - simpl in E, Ha, Hb. injection E as -> E.
    apply andb_true_iff in Ha as [_ Ha]. apply andb_true_iff in Hb as [_ Hb].
    destruct (IH b Ha Hb E) as [-> ->]. auto.
Qed.

Lemma language_part_not_instruction (x y : str) :
  INSTRUCTION ++ x <> (TARGET_LANGUAGE ++ y).
Proof. discriminate. Qed.

(** X4: for language values without a line break, the prompt determines
    how it was built: two calls with the same prompt had the same trimmed
    instruction, agreed on whether the language counts as "auto", and, if
    it does not, had the very same language value, casing included. *)
Theorem generate_code_prompt_injective (ul : str -> str)
    (i1 i2 l1 l2 : str) :
  no_LF l1 = true -> no_LF l2 = true ->
  generate_code_prompt ul i1 (Some l1) = generate_code_prompt ul i2 (Some l2) ->
  strip i1 = strip i2
  /\ str_eqb (lower ul l1) AUTO = str_eqb (lower ul l2) AUTO
  /\ (lower ul l1 <> AUTO -> l1 = l2).
Proof.
  intros H1 H2.
  destruct (str_eqb (lower ul l1) AUTO) eqn:T1;
    destruct (str_eqb (lower ul l2) AUTO) eqn:T2;
    first [ rewrite (generate_code_prompt_without ul i1 (Some l1) T1)
          | rewrite (generate_code_prompt_with ul i1 (Some l1) T1) ];
    first [ rewrite (generate_code_prompt_without ul i2 (Some l2) T2)
          | rewrite (generate_code_prompt_with ul i2 (Some l2) T2) ];
    change (default AUTO (Some l1)) with l1;
    change (default AUTO (Some l2)) with l2; intros E;
    apply (app_inv_head (strip system_prompt)) in E;
    apply (app_inv_head BLANK_LINE) in E.
  - apply (app_inv_head INSTRUCTION) in E. apply str_eqb_eq in T1.
    intuition congruence.
  - rewrite <- app_assoc in E. now apply language_part_not_instruction in E.
  - rewrite <- app_assoc in E. symmetry in E.
    now apply language_part_not_instruction in E.
  - rewrite <- !app_assoc in E. apply (app_inv_head TARGET_LANGUAGE) in E.
    change (l1 ++ LF :: (LF :: INSTRUCTION ++ strip i1)
            = l2 ++ LF :: (LF :: INSTRUCTION ++ strip i2)) in E.
    apply (first_line_break l1 l2 _ _ H1 H2) in E as [-> E].
    apply (app_inv_head (LF :: INSTRUCTION)) in E. auto.
Qed.

Lemma generate_code_prompt_injective_run :
  generate_code_prompt Run.latin1_lower (lit " a ") (Some (lit "Go"))
  = generate_code_prompt Run.latin1_lower (lit "a") (Some (lit "Go"))
  /\ strip (lit " a ") = strip (lit "a").
Proof.
  split; [reflexivity|].
  exact (proj1 (generate_code_prompt_injective Run.latin1_lower
                  (lit " a ") (lit "a") (lit "Go") (lit "Go")
                  eq_refl eq_refl eq_refl)).
Defined.

(** ** The remote calls the application makes *)

(** X5: the application invokes the client's create call once for each
    request that reaches the generate route with a valid body, in order,
    and for nothing else: no invocation for the informational routes, for
    unknown paths or for rejected bodies, and the application itself never
    invokes it a second time for a request.  Each invocation carries the
    prompt as its only message, under the role "user", with the
    configured model, token cap and temperature.  Recording the
    invocations changes neither the answers nor the world. *)
Theorem serve_all_calls {W : Type} (ul : str -> str)
    (groq_create : option str -> CompletionRequest -> M W ChatCompletion)
    (env : environ) (reqs : list http_request) (w : W) (log : call_log) :
  serve_all ul (logged groq_create) env reqs (w, log)
  = (serve_all ul groq_create env reqs w,
     log ++ List.concat (List.map (calls_of ul env) reqs))
  /\ (forall req, snd (app ul (logged groq_create) env req (w, log))
                  = snd (app ul groq_create env req w))
  /\ (forall req, generation_of req = None ->
                  fst (app ul groq_create env req w) = w)
  /\ (forall req, (length (calls_of ul env req) <= 1)%nat)
  /\ (forall req key rq, In (key, rq) (calls_of ul env req) ->
        exists request,
          generation_of req = Some request
          /\ key = env !! lit "GROQ_API_KEY"
          /\ messages rq = [ {| role := lit "user";
                                msg_content := request_prompt ul request |} ]
          /\ model rq = default (lit "llama3-8b-8192") (env !! lit "MODEL_ID")
          /\ max_tokens rq = 1500%Z /\ temperature rq = 0.5%Q).
Proof.
  split; [|split; [|split; [|split]]].
  - revert w log. induction reqs as [|req reqs IH]; intros w log.
    + simpl. now rewrite app_nil_r.
    + cbn [serve_all List.map List.concat]. rewrite app_logged. cbn [fst].
      rewrite IH. now rewrite <- app_assoc.
  - intros req. now rewrite app_logged.
  - intros [path|path json]; unfold generation_of, app.
    + intros _. destruct (str_eqb path (lit "/")); [reflexivity|].
      destruct (str_eqb path (lit "/health")); reflexivity.
    + change (API_PREFIX ++ lit "/generate") with (lit "/api/generate").
      destruct (str_eqb path (lit "/api/generate")); [|reflexivity].
      intros ->. reflexivity.
  - intros req. unfold calls_of. destruct (generation_of req); simpl; lia.
  - intros req key rq. unfold calls_of.
    destruct (generation_of req) as [request|]; [|intros []].
    intros [[= <- <-]|[]]. exists request.
    split; [reflexivity|]. split; [reflexivity|]. split; [reflexivity|].
    split; [|split; reflexivity].
    cbn. unfold getenv_default. destruct (env !! lit "MODEL_ID"); reflexivity.
Qed.

Example serve_all_calls_run :
  let reqs := [GET (lit "/");
               POST (lit "/api/generate") (Cases.body_of (lit "a"));
               POST (lit "/api/generate")
                    (JObject (<[lit "language" := JString (lit "Go")]> ∅));
               POST (lit "/api/generate")
                    (JObject (<[lit "prompt" := JNumber 7]> ∅));
               POST (lit "/api/generate") (JArray [JString (lit "b")]);
               POST (lit "/generate") (Cases.body_of (lit "b"));
               GET (lit "/api/generate");
               POST (lit "/api/generate") (Cases.body_of (lit "c"))] in
  List.map (fun c => List.map msg_content (messages (snd c)))
    (snd (serve_all Run.latin1_lower (logged Run.failing_remote) ∅ reqs (0%nat, [])))
  = [[generate_code_prompt Run.latin1_lower (lit "a") None];
     [generate_code_prompt Run.latin1_lower (lit "c") None]].
Proof. vm_compute. reflexivity. Qed.

(** ** What the wrapper returns *)

(** X6: a failure of the remote call cannot be told from a reply: when
    one remote raises [e] and another returns a first choice whose trimmed
    content reads "Error: " followed by [str(e)], the two answers to
    POST /api/generate are the same: the 200 response with that text when
    the message can be encoded, the server error otherwise. *)
Theorem failure_reads_as_reply {W1 W2 : Type} (ul : str -> str)
    (failing : option str -> CompletionRequest -> M W1 ChatCompletion)
    (answering : option str -> CompletionRequest -> M W2 ChatCompletion)
    (env : environ) (json : json_value) (request : PromptRequest)
    (w1 : W1) (w2 : W2) (e : Exception)
    (response : ChatCompletion) (cs : list Choice) (c : Choice)
    (m : ChatMessage) (text : str) :
  PromptRequest_validate json = Some request ->
  snd (remote_call failing (generator (agent env)) (request_prompt ul request) w1)
  = Raise e ->
  snd (remote_call answering (generator (agent env)) (request_prompt ul request) w2)
  = Return response ->
  choices response = Some cs -> cs !! 0%nat = Some c ->
  message c = Some m -> content m = Some text ->
  strip text = lit "Error: " ++ exc_str e ->
  let answer1 := snd (app ul failing env (POST (lit "/api/generate") json) w1) in
  let answer2 := snd (app ul answering env (POST (lit "/api/generate") json) w2) in
  answer1 = answer2
  /\ answer1
     = Some (if utf8_encodable (exc_str e)
             then {| status := 200;
                     body := JSON [(lit "response", lit "Error: " ++ exc_str e)] |}
             else INTERNAL_SERVER_ERROR).
Proof.
  intros Hv Hf Ha Hcs Hc Hm Ht Hs answer1 answer2. unfold answer1, answer2.
  rewrite (app_generate_run ul failing env json request w1 Hv).
  rewrite (app_generate_run ul answering env json request w2 Hv).
  cbn [snd]. rewrite Hf, Ha. unfold reply_text, first_choice_text.
  rewrite Hcs, Hc, Hm, Ht, Hs. split; [reflexivity|].
  now rewrite render_response, utf8_encodable_Error.
Qed.

Lemma failure_reads_as_reply_run :
  snd (app Run.latin1_lower Run.failing_remote Cases.env
           (POST (lit "/api/generate") (Cases.body_of (lit "a"))) 0%nat)
  = snd (app Run.latin1_lower (Cases.replying (lit " Error: Connection error.  "))
             Cases.env (POST (lit "/api/generate") (Cases.body_of (lit "a"))) 5%nat).
Proof.
  exact (proj1 (failure_reads_as_reply Run.latin1_lower Run.failing_remote
           (Cases.replying (lit " Error: Connection error.  ")) Cases.env
           (Cases.body_of (lit "a")) (PromptRequest_init (lit "a") None)
           0%nat 5%nat
           {| exc_type := lit "APIConnectionError";
              exc_str := lit "Connection error." |}
           (Cases.completion_of (lit " Error: Connection error.  "))
           [ {| message := Some {| content := Some (lit " Error: Connection error.  ") |} |};
             {| message := None |} ]
           {| message := Some {| content := Some (lit " Error: Connection error.  ") |} |}
           {| content := Some (lit " Error: Connection error.  ") |}
           (lit " Error: Connection error.  ")
           eq_refl eq_refl eq_refl eq_refl eq_refl eq_refl eq_refl eq_refl)).
Defined.

(** ** Request bodies *)

(** X7: fields of the body other than prompt and language never matter:
    adding, changing or removing one changes neither the validation nor
    the application's answer and remote call.  A body whose prompt or
    language is present but not a JSON string is rejected: the route is
    not run and the world is left as it was. *)
Theorem PromptRequest_validate_fields {W : Type} (ul : str -> str)
    (groq_create : option str -> CompletionRequest -> M W ChatCompletion)
    (env : environ) (fields : gmap str json_value) (w : W) :
  (forall k v, k <> lit "prompt" -> k <> lit "language" ->
     PromptRequest_validate (JObject (<[k := v]> fields))
     = PromptRequest_validate (JObject fields)
     /\ PromptRequest_validate (JObject (delete k fields))
        = PromptRequest_validate (JObject fields)
     /\ app ul groq_create env
            (POST (lit "/api/generate") (JObject (<[k := v]> fields))) w
        = app ul groq_create env (POST (lit "/api/generate") (JObject fields)) w)
  /\ (forall k v, (k = lit "prompt" \/ k = lit "language") ->
        str_field v = None ->
        PromptRequest_validate (JObject (<[k := v]> fields)) = None
        /\ app ul groq_create env
               (POST (lit "/api/generate") (JObject (<[k := v]> fields))) w
           = (w, None)).
Proof.
  split.
  - intros k v Hp Hl.
    assert (E : PromptRequest_validate (JObject (<[k := v]> fields))
                = PromptRequest_validate (JObject fields)).
    { unfold PromptRequest_validate. now rewrite !lookup_insert_ne by congruence. }
    split; [exact E|]. split.
    + unfold PromptRequest_validate. now rewrite !lookup_delete_ne by congruence.
    + unfold app. now rewrite E.
  - intros k v Hk Hv.
    assert (E : PromptRequest_validate (JObject (<[k := v]> fields)) = None).
    { unfold PromptRequest_validate. destruct Hk as [-> | ->].
      - now rewrite lookup_insert_eq, Hv.
      - rewrite lookup_insert_ne by discriminate.
        destruct (fields !! lit "prompt") as [v'|]; [|reflexivity].
        destruct (str_field v'); [|reflexivity].
        now rewrite lookup_insert_eq, Hv. }
    split; [exact E|]. unfold app. now rewrite generate_path, E.
Qed.

(** ** The environment *)

(** X8: the configuration reads the two variables GROQ_API_KEY and
    MODEL_ID and nothing else: setting or unsetting any other variable
    changes neither the configuration nor the requests sent to the remote
    service. *)
Theorem Config_other_variables (env : environ) (k v : str) :
  k <> lit "GROQ_API_KEY" -> k <> lit "MODEL_ID" ->
  Config_init (<[k := v]> env) = Config_init env
  /\ Config_init (delete k env) = Config_init env
  /\ (forall p, completion_request (generator (agent (<[k := v]> env))) p
                = completion_request (generator (agent env)) p).
Proof.
  intros Hk Hm.
  assert (E : Config_init (<[k := v]> env) = Config_init env).
  { unfold Config_init, getenv, getenv_default.
    now rewrite !lookup_insert_ne by congruence. }
  split; [exact E|]. split.
  - unfold Config_init, getenv, getenv_default.
    now rewrite !lookup_delete_ne by congruence.
  - intros p. unfold agent. now rewrite E.
Qed.

Lemma Config_other_variables_run :
  Config_init (<[lit "PATH" := lit "/usr/bin"]> (<[lit "MODEL_ID" := lit "m"]> ∅))
  = Config_init (<[lit "MODEL_ID" := lit "m"]> ∅).
Proof.
  refine (proj1 (Config_other_variables (<[lit "MODEL_ID" := lit "m"]> ∅)
                   (lit "PATH") (lit "/usr/bin") _ _));
    intros H; vm_compute in H; discriminate H.
Defined.

(** ** The three prompts *)

Lemma template_first : exists r, strip system_prompt = 89 :: r.
Proof. vm_compute. eauto. Qed.

Lemma system_prompt_first : exists r, system_prompt = LF :: r.
Proof. vm_compute. eauto. Qed.

(** X9: the code handed to [review_code] or [explain_code] is not
    trimmed and can be read back from the prompt: different codes give
    different prompts.  No review prompt is an explain prompt, and no
    prompt of [generate_code] is either of them. *)
Theorem review_explain_prompts_apart (ul : str -> str) (c1 c2 : str)
    (instruction : str) (language : option str) :
  (review_code_prompt c1 = review_code_prompt c2 <-> c1 = c2)
  /\ (explain_code_prompt c1 = explain_code_prompt c2 <-> c1 = c2)
  /\ review_code_prompt c1 <> explain_code_prompt c2
  /\ generate_code_prompt ul instruction language <> review_code_prompt c1
  /\ generate_code_prompt ul instruction language <> explain_code_prompt c1.
Proof.
  unfold review_code_prompt, explain_code_prompt.
  split; [|split; [|split; [|split]]].
  - split; [|congruence]. intros E.
    apply (app_inv_head system_prompt) in E.
    now apply (app_inv_head REVIEW_HEADER) in E.
  - split; [|congruence]. intros E.
    apply (app_inv_head system_prompt) in E.
    now apply (app_inv_head EXPLAIN_HEADER) in E.
  - intros E. apply (app_inv_head system_prompt) in E. discriminate E.
  - destruct (generate_code_prompt_template ul instruction language) as [rest ->].
    destruct template_first as [r ->]. destruct system_prompt_first as [r' ->].
    discriminate.
  - destruct (generate_code_prompt_template ul instruction language) as [rest ->].
    destruct template_first as [r ->]. destruct system_prompt_first as [r' ->].
    discriminate.
Qed.

(** ** Leaving the language out *)

(** X11: sending "auto" in any casing as the language is the same as
    sending no language field at all: the application makes the same
    remote call and gives the same answer. *)
Theorem auto_language_as_omitted {W : Type} (ul : str -> str)
    (groq_create : option str -> CompletionRequest -> M W ChatCompletion)
    (env : environ) (json : gmap str json_value) (p l : str) (w : W) :
  json !! lit "prompt" = Some (JString p) ->
  casing_of l AUTO ->
  app ul groq_create env
      (POST (lit "/api/generate") (JObject (<[lit "language" := JString l]> json))) w
  = app ul groq_create env
        (POST (lit "/api/generate") (JObject (delete (lit "language") json))) w.
Proof.
  intros Hp Hl.
  assert (V1 : PromptRequest_validate (JObject (<[lit "language" := JString l]> json))
               = Some (PromptRequest_init p (Some l))).
  { unfold PromptRequest_validate.
    rewrite lookup_insert_ne by discriminate. rewrite Hp.
    now rewrite lookup_insert_eq. }
  assert (V2 : PromptRequest_validate (JObject (delete (lit "language") json))
               = Some (PromptRequest_init p None)).
  { unfold PromptRequest_validate.
    rewrite lookup_delete_ne by discriminate. rewrite Hp.
    now rewrite lookup_delete_eq. }
  rewrite (app_generate_run ul groq_create env _ _ w V1).
  rewrite (app_generate_run ul groq_create env _ _ w V2).
  assert (E : request_prompt ul (PromptRequest_init p (Some l))
              = request_prompt ul (PromptRequest_init p None)).
  { unfold request_prompt, PromptRequest_init. cbn [prompt language default].
    rewrite !generate_code_prompt_without; [reflexivity|reflexivity|].
    change (str_eqb (lower ul l) AUTO = true).
    now rewrite (casing_of_AUTO_lower ul l Hl). }
  now rewrite E.
Qed.

Lemma auto_language_as_omitted_run :
  app Run.latin1_lower Run.canned_remote ∅
      (POST (lit "/api/generate")
            (JObject (<[lit "language" := JString (lit "AUTO")]>
                        (<[lit "prompt" := JString (lit "a")]> ∅)))) 0%nat
  = app Run.latin1_lower Run.canned_remote ∅
        (POST (lit "/api/generate")
              (JObject (delete (lit "language")
                          (<[lit "prompt" := JString (lit "a")]> ∅)))) 0%nat.
Proof.
  refine (auto_language_as_omitted Run.latin1_lower Run.canned_remote ∅
            (<[lit "prompt" := JString (lit "a")]> ∅) (lit "a") (lit "AUTO") 0%nat
            eq_refl _).
  unfold casing_of.
  change (lit "AUTO") with [65; 85; 84; 79]. change AUTO with [97; 117; 116; 111].
  repeat (constructor; [right; reflexivity|]). constructor.
Defined.
